(** * Data-grid cell controller and auth-identity fixture: a shallow embedding

    The development follows two source files:

    - [components/data-grid/hooks.tsx]: the React hook [useDataGridCell]
      with its pointer, focus and keyboard handlers, and the context
      accessor [useDataGridContext];
    - the test fixture [createAuthIdentities], which delegates to an
      auth-identity service.

    Handlers are written in a small state monad with early [return], over a
    record that holds what a handler can read or write: the coordinator's
    state, the cell's local [showOverlay] state, the two refs, the focused
    element, and the flags of the event in flight. *)

From Stdlib Require Import ZArith NArith List Bool String Lia.
From ExtLib Require Import Structures.Monad.
Import ListNotations.
Import MonadNotation.
Local Open Scope monad_scope.

(** ** Data model *)

(** [CellCoords] of [./types]: [{ row, col }], both non-negative indices. *)
Record CellCoords := mkCoords { row : N; col : N }.

(** The [type] prop of [UseDataGridCellProps]:
    ["text" | "number" | "select" | "boolean"]. *)
Inductive CellType := TText | TNumber | TSelect | TBoolean.

(** A JavaScript string, as its sequence of UTF-16 code units. *)
Definition JsString := list N.

(** The fields of a React [MouseEvent] the handlers read. *)
Record MouseEvent := mkMouse { detail : Z; shiftKey : bool }.

(** The fields of a React [KeyboardEvent] the handlers read. *)
Record KeyboardEvent := mkKey { key : JsString; ctrlKey : bool; metaKey : bool }.

(** What [inputRef.current] can point to: line 192 distinguishes
    [HTMLInputElement] from any other [HTMLElement]. *)
Inductive HTMLElement := HTMLInputElement | HTMLOtherElement.

(** What [containerRef.current] points to once the view has mounted it. *)
Inductive HTMLDivElement := Div.

(** The element of the cell that holds the document focus. *)
Inductive Focused := FocusContainer | FocusInput.

(** Modelled from the spec: the Grid Coordinator's state ([./context] and the
    provider behind it are not part of the sources). The spec gives it the
    current anchor ("CellCoords | none"), the active range as "an anchor
    CellCoords plus an end CellCoords", and the interaction flags
    [isSelecting] and [isEditing]. *)
Record Coordinator := mkCoordinator {
  anchor : option CellCoords;
  rangeEnd : option CellCoords;
  isSelecting : bool;
  isEditing : bool
}.

(** Everything a handler of one cell can observe or change. *)
Record World := mkWorld {
  grid : Coordinator;                 (* the coordinator's state *)
  showOverlay : bool;                 (* [useState(true)], line 77 *)
  containerRef : option HTMLDivElement; (* [containerRef.current], line 79 *)
  inputRef : option HTMLElement;      (* [inputRef.current], line 80 *)
  activeElement : option Focused;     (* focus, when it is inside the cell *)
  inputSelected : bool;               (* [select()] was called on the input *)
  dispatched : list KeyboardEvent;    (* events dispatched to the input, oldest first *)
  defaultPrevented : bool;            (* flag of the event being handled *)
  propagationStopped : bool           (* flag of the event being handled *)
}.

(** ** Field updates *)

Definition with_grid (f : Coordinator -> Coordinator) (w : World) : World :=
  mkWorld (f (grid w)) (showOverlay w) (containerRef w) (inputRef w)
          (activeElement w) (inputSelected w) (dispatched w)
          (defaultPrevented w) (propagationStopped w).

Definition with_showOverlay (b : bool) (w : World) : World :=
  mkWorld (grid w) b (containerRef w) (inputRef w)
          (activeElement w) (inputSelected w) (dispatched w)
          (defaultPrevented w) (propagationStopped w).

Definition with_activeElement (t : Focused) (w : World) : World :=
  mkWorld (grid w) (showOverlay w) (containerRef w) (inputRef w)
          (Some t) (inputSelected w) (dispatched w)
          (defaultPrevented w) (propagationStopped w).

Definition with_inputSelected (w : World) : World :=
  mkWorld (grid w) (showOverlay w) (containerRef w) (inputRef w)
          (activeElement w) true (dispatched w)
          (defaultPrevented w) (propagationStopped w).

Definition with_dispatched (e : KeyboardEvent) (w : World) : World :=
  mkWorld (grid w) (showOverlay w) (containerRef w) (inputRef w)
          (activeElement w) (inputSelected w) (dispatched w ++ [e])
          (defaultPrevented w) (propagationStopped w).

Definition with_defaultPrevented (w : World) : World :=
  mkWorld (grid w) (showOverlay w) (containerRef w) (inputRef w)
          (activeElement w) (inputSelected w) (dispatched w)
          true (propagationStopped w).

Definition with_propagationStopped (w : World) : World :=
  mkWorld (grid w) (showOverlay w) (containerRef w) (inputRef w)
          (activeElement w) (inputSelected w) (dispatched w)
          (defaultPrevented w) true.

(** ** The handler monad: state passing with early return *)

(** A statement either falls through to the next one or has executed
    [return]. *)
Inductive Flow (A : Type) := Next (a : A) | Returned.
Arguments Next {A} a.
Arguments Returned {A}.

Definition Handler (A : Type) : Type := World -> Flow A * World.

#[export] Instance Monad_Handler : Monad Handler := {
  ret := fun _ a w => (Next a, w);
  bind := fun _ _ m k w =>
    match m w with
    | (Next a, w') => k a w'
    | (Returned, w') => (Returned, w')
    end
}.

(** The [return] statement of a handler. *)
Definition return_ {A} : Handler A := fun w => (Returned, w).

(** [if (c) { body }] followed by the rest of the function. *)
Definition when (c : bool) (body : Handler unit) : Handler unit :=
  if c then body else ret tt.

Definition reads {A} (f : World -> A) : Handler A := fun w => (Next (f w), w).
Definition writes (f : World -> World) : Handler unit := fun w => (Next tt, f w).

(** The world a handler leaves behind. *)
Definition run (h : Handler unit) (w : World) : World := snd (h w).

(** ** Primitive effects *)

Definition preventDefault : Handler unit := writes with_defaultPrevented.
Definition stopPropagation : Handler unit := writes with_propagationStopped.
Definition setShowOverlay (b : bool) : Handler unit := writes (with_showOverlay b).

(** [el.focus()]: the element takes the document focus. The focus and blur
    events that follow are delivered by the host as events of their own
    ([handleInputFocus], [handleInputBlur]). *)
Definition focus (t : Focused) : Handler unit := writes (with_activeElement t).

Definition select : Handler unit := writes with_inputSelected.
Definition dispatchEvent (e : KeyboardEvent) : Handler unit :=
  writes (with_dispatched e).

(** Modelled from the spec: the coordinator's mutators, which live in the
    provider behind [DataGridContext]. [setSingleRange]: "set a new
    single-cell range at the clicked coordinates (anchor = end = clicked
    cell)". *)
Definition setSingleRange (c : CellCoords) : Handler unit :=
  writes (with_grid (fun g =>
    mkCoordinator (Some c) (Some c) (isSelecting g) (isEditing g))).

(** Modelled from the spec: [setRangeEnd] "extends the range's end without
    changing the anchor". *)
Definition setRangeEnd (c : CellCoords) : Handler unit :=
  writes (with_grid (fun g =>
    mkCoordinator (anchor g) (Some c) (isSelecting g) (isEditing g))).

(** Modelled from the spec: [setIsSelecting(bool)] writes the coordinator's
    [isSelecting] flag. *)
Definition setIsSelecting (b : bool) : Handler unit :=
  writes (with_grid (fun g =>
    mkCoordinator (anchor g) (rangeEnd g) b (isEditing g))).

(** Modelled from the spec: [setIsEditing(bool)] writes the coordinator's
    [isEditing] flag. *)
Definition setIsEditing (b : bool) : Handler unit :=
  writes (with_grid (fun g =>
    mkCoordinator (anchor g) (rangeEnd g) (isSelecting g) b)).

(** ** Pointer handlers *)

(** [coords.col === anchor?.col] (line 100): with no anchor the right-hand
    side is [undefined] and the test fails. *)
Definition colMatchesAnchor (coords : CellCoords) (a : option CellCoords) : bool :=
  match a with
  | Some a' => (col coords =? col a')%N
  | None => false
  end.

(** Lines 82-113. [coords] and [anchor] are the values the callback closes
    over (its dependency list, line 112): the cell's coordinates and the
    anchor the coordinator reported at the last render. *)
Definition handleOverlayMouseDown (coords : CellCoords)
    (anchor : option CellCoords) (e : MouseEvent) : Handler unit :=
  preventDefault ;;
  stopPropagation ;;
  when (detail e =? 2)%Z
    (input <- reads inputRef ;;
     match input with
     | Some _ =>
         setShowOverlay false ;;
         focus FocusInput ;;
         return_
     | None => ret tt
     end) ;;
  when (shiftKey e)
    (if colMatchesAnchor coords anchor
     then setRangeEnd coords ;; return_
     else ret tt) ;;
  container <- reads containerRef ;;
  match container with
  | Some _ =>
      setSingleRange coords ;;
      setIsSelecting true ;;
      focus FocusContainer
  | None => ret tt
  end.

(** Lines 115-137. The callback closes over [coords] only (line 136).
    [inputRef.current?.focus()] does nothing when the ref is empty. *)
Definition handleBooleanInnerMouseDown (coords : CellCoords) (e : MouseEvent)
  : Handler unit :=
  preventDefault ;;
  stopPropagation ;;
  when (detail e =? 2)%Z
    (input <- reads inputRef ;;
     match input with
     | Some _ => focus FocusInput
     | None => ret tt
     end ;;
     return_) ;;
  when (shiftKey e)
    (setRangeEnd coords ;;
     return_) ;;
  container <- reads containerRef ;;
  match container with
  | Some _ =>
      setSingleRange coords ;;
      setIsSelecting true ;;
      focus FocusContainer
  | None => ret tt
  end.

(** Lines 139-147. *)
Definition handleInputBlur : Handler unit :=
  setShowOverlay true ;;
  setIsEditing false.

Definition handleInputFocus : Handler unit :=
  setShowOverlay false ;;
  setIsEditing true.

(** ** Keystroke classification *)

(** Line terminators, which [.] does not match (the regular expressions carry
    no [s] flag): LF, CR, LS and PS. *)
Definition isLineTerminator (c : N) : bool :=
  ((c =? 0x0A) || (c =? 0x0D) || (c =? 0x2028) || (c =? 0x2029))%N.

Definition isHighSurrogate (c : N) : bool := ((0xD800 <=? c) && (c <=? 0xDBFF))%N.
Definition isLowSurrogate (c : N) : bool := ((0xDC00 <=? c) && (c <=? 0xDFFF))%N.

(** [textCharacterRegex.test(key)] with [/^.$/u] (line 38): under the [u]
    flag [.] consumes one code point, so the whole string is either one code
    unit that is not a line terminator or one surrogate pair. *)
Definition textCharacterRegex_test (k : JsString) : bool :=
  match k with
  | [c] => negb (isLineTerminator c)
  | [h; l] => isHighSurrogate h && isLowSurrogate l
  | _ => false
  end.

(** [numberCharacterRegex.test(key)] with [/^[0-9]$/u] (line 39). *)
Definition numberCharacterRegex_test (k : JsString) : bool :=
  match k with
  | [c] => ((0x30 <=? c) && (c <=? 0x39))%N
  | _ => false
  end.

(** Lines 149-163. *)
Definition validateKeyStroke (type : CellType) (k : JsString) : bool :=
  match type with
  | TNumber => numberCharacterRegex_test k
  | TText => textCharacterRegex_test k
  | _ => false
  end.

(** [String.prototype.toLowerCase], restricted to the letters A-Z; other
    code units are kept. The source only compares the result with ["z"],
    ["c"] and ["v"], and Z, C and V are the only code points whose lower
    case is one of these, so the restriction does not change any test. *)
Definition toLowerCase (s : JsString) : JsString :=
  map (fun c => if ((0x41 <=? c) && (c <=? 0x5A))%N then (c + 0x20)%N else c) s.

(** [===] on two strings. *)
Fixpoint strictEquals (a b : JsString) : bool :=
  match a, b with
  | [], [] => true
  | x :: a', y :: b' => (x =? y)%N && strictEquals a' b'
  | _, _ => false
  end.

Definition str_z : JsString := [0x7A%N].
Definition str_c : JsString := [0x63%N].
Definition str_v : JsString := [0x76%N].

(** [instanceof HTMLInputElement] (line 192). *)
Definition isHTMLInputElement (el : HTMLElement) : bool :=
  match el with
  | HTMLInputElement => true
  | HTMLOtherElement => false
  end.

(** [new KeyboardEvent(e.type, e.nativeEvent)] (line 186): a fresh event
    initialised from the fields of the native one. *)
Definition newKeyboardEvent (e : KeyboardEvent) : KeyboardEvent :=
  mkKey (key e) (ctrlKey e) (metaKey e).

(** Lines 165-199. [type] and [showOverlay] are the values the callback
    closes over (through [validateKeyStroke] and its dependency list,
    line 198). The guard of line 167 is a short-circuit disjunction: its
    first disjunct is the [None] branch, the other two are tested once the
    input is known to be there. *)
Definition handleContainerKeyDown (type : CellType) (showOverlay : bool)
    (e : KeyboardEvent) : Handler unit :=
  current <- reads inputRef ;;
  match current with
  | None => return_
  | Some input =>
      when (negb (validateKeyStroke type (key e)) || negb showOverlay) return_ ;;
      when (strictEquals (toLowerCase (key e)) str_z && (ctrlKey e || metaKey e))
        return_ ;;
      when (strictEquals (toLowerCase (key e)) str_c && (ctrlKey e || metaKey e))
        return_ ;;
      when (strictEquals (toLowerCase (key e)) str_v && (ctrlKey e || metaKey e))
        return_ ;;
      let event := newKeyboardEvent e in
      focus FocusInput ;;
      setShowOverlay false ;;
      when (isHTMLInputElement input) select ;;
      dispatchEvent event
  end.

(** ** The hook and its render props *)

Definition CellType_eqb (a b : CellType) : bool :=
  match a, b with
  | TText, TText | TNumber, TNumber | TSelect, TSelect | TBoolean, TBoolean => true
  | _, _ => false
  end.

(** Lines 205-207. *)
Definition fieldWithoutOverlay (type : CellType) : bool :=
  CellType_eqb type TBoolean || CellType_eqb type TSelect.

(** Line 220: the [showOverlay] flag handed to the view. *)
Definition renderedShowOverlay (type : CellType) (showOverlay : bool) : bool :=
  if fieldWithoutOverlay type then false else showOverlay.

(** Modelled from the spec: [isCellMatch] of [./utils], which is not part of
    the sources. "Two coordinate pairs are equal iff both components
    match." *)
Definition isCellMatch (a b : CellCoords) : bool :=
  ((row a =? row b) && (col a =? col b))%N.

(** Lines 201-203. *)
Definition isAnchor (coords : CellCoords) (anchor : option CellCoords) : bool :=
  match anchor with
  | Some a => isCellMatch coords a
  | None => false
  end.

(** The value a [DataGridContext] provider hands to its cells, as far as the
    hook computes with it: the current anchor and the two selection
    queries. The mutators act on the [Coordinator] state above; [register],
    [control] and the handler factories are passed through to the view
    untouched and are left out. *)
Record DataGridContextValue := mkContext {
  ctx_anchor : option CellCoords;
  getIsCellSelected : CellCoords -> bool;
  getIsCellDragSelected : CellCoords -> bool
}.

(** A JavaScript [Error] with its message. *)
Inductive JsError := Error (message : string).

(** A computation that returns a value or throws. *)
Definition Throws (A : Type) : Type := (JsError + A)%type.

#[export] Instance Monad_Throws : Monad Throws := {
  ret := fun _ a => inr a;
  bind := fun _ _ m k =>
    match m with
    | inl err => inl err
    | inr a => k a
    end
}.

Definition throw {A} (err : JsError) : Throws A := inl err.

(** Lines 20-30. [context] is what [useContext(DataGridContext)] returned:
    [None] when no provider encloses the caller. *)
Definition useDataGridContext (context : option DataGridContextValue)
  : Throws DataGridContextValue :=
  match context with
  | None =>
      throw (Error "useDataGridContext must be used within a DataGridContextProvider")
  | Some c => ret c
  end.

Record ContainerProps := mkContainerProps {
  c_isAnchor : bool;
  c_isSelected : bool;
  c_isDragSelected : bool;
  c_showOverlay : bool;
  inner_onMouseDown : option (MouseEvent -> Handler unit);
  inner_onKeyDown : KeyboardEvent -> Handler unit;
  inner_data_container_id : string;
  overlay_onMouseDown : MouseEvent -> Handler unit
}.

Record InputProps := mkInputProps {
  i_onBlur : Handler unit;
  i_onFocus : Handler unit;
  i_data_row : N;
  i_data_col : N;
  i_data_cell_id : string;
  i_data_field : string
}.

Record DataGridCellRenderProps := mkRenderProps {
  container : ContainerProps;
  input : InputProps
}.

Record UseDataGridCell := mkUseDataGridCell {
  id : string;
  renderProps : DataGridCellRenderProps
}.

(** Line 225: only boolean cells get a mouse-down handler on the inner
    control. *)
Definition innerOnMouseDown (type : CellType) (coords : CellCoords)
  : option (MouseEvent -> Handler unit) :=
  if CellType_eqb type TBoolean
  then Some (handleBooleanInnerMouseDown coords)
  else None.

Section Hook.

(** [generateCellId] of [./utils] is not part of the sources; the hook
    only passes its result on. *)
Variable generateCellId : CellCoords -> string.

(** Lines 41-252, one render of the hook. [context] is the result of
    [useContext], [showOverlay] the current value of the local state. The
    effects scheduled with [useEffect] run after the render and are not
    part of the returned value. *)
Definition useDataGridCell (context : option DataGridContextValue)
    (field : string) (rowIndex columnIndex : N) (type : CellType)
    (showOverlay : bool) : Throws UseDataGridCell :=
  let coords := mkCoords rowIndex columnIndex in
  let id := generateCellId coords in
  ctx <- useDataGridContext context ;;
  let anchor := ctx_anchor ctx in
  ret (mkUseDataGridCell id
    (mkRenderProps
      (mkContainerProps
        (isAnchor coords anchor)
        (getIsCellSelected ctx coords)
        (getIsCellDragSelected ctx coords)
        (renderedShowOverlay type showOverlay)
        (innerOnMouseDown type coords)
        (handleContainerKeyDown type showOverlay)
        id
        (handleOverlayMouseDown coords anchor))
      (mkInputProps
        handleInputBlur
        handleInputFocus
        (row coords)
        (col coords)
        id
        field))).

End Hook.

(** ** The auth-identity fixture *)

Record ProviderIdentity := mkProviderIdentity {
  entity_id : string;
  provider : string
}.

(** One element of [userData]: the shape of the default records. *)
Record AuthIdentityInput := mkInput {
  input_id : option string;
  provider_identities : list ProviderIdentity;
  app_metadata : option (list (string * string))
}.

(** The state of a promise once it has settled. *)
Inductive Settled (A : Type) := Fulfilled (value : A) | Rejected (reason : JsError).
Arguments Fulfilled {A} value.
Arguments Rejected {A} reason.

(** An asynchronous computation over a store [S] (the service's backing
    state): it settles and leaves a store behind. *)
Definition Async (S A : Type) : Type := S -> Settled A * S.

(** [return v] and [await p] inside an [async] function: a fulfilled promise
    feeds its value to the continuation, a rejected one rejects the whole
    function with the same reason. *)
#[export] Instance Monad_Async (S : Type) : Monad (Async S) := {
  ret := fun _ a s => (Fulfilled a, s);
  bind := fun _ _ m k s =>
    match m s with
    | (Fulfilled a, s') => k a s'
    | (Rejected r, s') => (Rejected r, s')
    end
}.

Definition await {S A} (p : Async S A) : Async S A := p.

(** [IAuthModuleService] of [@medusajs/types], as far as the fixture uses
    it: one method, over a result type [AuthIdentity] and a store. *)
Class IAuthModuleService (Store AuthIdentity : Type) := {
  service_createAuthIdentities : list AuthIdentityInput -> Async Store (list AuthIdentity)
}.

(** The default value of the [userData] parameter (lines 6-36). *)
Definition defaultUserData : list AuthIdentityInput :=
  [ mkInput (Some "test-id")
      [mkProviderIdentity "test-id" "manual"]
      (Some [("user_id", "user-1")]);
    mkInput (Some "test-id-1")
      [mkProviderIdentity "test-id-1" "manual"]
      None;
    mkInput None
      [mkProviderIdentity "test-id-2" "store"]
      None ]%string.

(** Lines 4-39. [userData] is [None] when the caller omits the argument. *)
Definition createAuthIdentities {Store AuthIdentity : Type}
    (service : IAuthModuleService Store AuthIdentity)
    (userData : option (list AuthIdentityInput))
  : Async Store (list AuthIdentity) :=
  let userData := match userData with Some l => l | None => defaultUserData end in
  created <- await (service_createAuthIdentities (IAuthModuleService := service) userData) ;;
  ret created.

(** ** Which handler a mouse-down reaches *)

(** The two places of a cell that carry a mouse-down handler in
    [renderProps]: [overlayProps.onMouseDown] (line 231) and
    [innerProps.onMouseDown] (lines 224-225). *)
Inductive MouseDownTarget := OnOverlay | OnInnerControl.

Definition mouseDownHandler (type : CellType) (coords : CellCoords)
    (anchor : option CellCoords) (target : MouseDownTarget)
  : option (MouseEvent -> Handler unit) :=
  match target with
  | OnOverlay => Some (handleOverlayMouseDown coords anchor)
  | OnInnerControl => innerOnMouseDown type coords
  end.

(** ** Vocabulary of the properties *)

(** The key classes in words: one decimal digit; one code point (a single
    code unit or a surrogate pair); a line terminator. *)
Definition isDigitKey (k : JsString) : Prop :=
  exists c, k = [c] /\ (0x30 <= c <= 0x39)%N.

Definition isSingleCodePoint (k : JsString) : Prop :=
  (exists c, k = [c]) \/
  (exists h l, k = [h; l] /\ isHighSurrogate h = true /\ isLowSurrogate l = true).

Definition isLineTerminatorKey (k : JsString) : Prop :=
  exists c, k = [c] /\ (c = 0x0A \/ c = 0x0D \/ c = 0x2028 \/ c = 0x2029)%N.

(** The keys a cell of each type accepts: a digit for a number cell, one
    code point other than a line terminator for a text cell, nothing for
    the other types. *)
Definition keyClass (type : CellType) (k : JsString) : Prop :=
  match type with
  | TNumber => isDigitKey k
  | TText => isSingleCodePoint k /\ ~ isLineTerminatorKey k
  | TSelect | TBoolean => False
  end.

(** The same with "any single character" for a text cell. *)
Definition keyClassAnyCharacter (type : CellType) (k : JsString) : Prop :=
  match type with
  | TNumber => isDigitKey k
  | TText => isSingleCodePoint k
  | TSelect | TBoolean => False
  end.

(** Undo/redo, copy and paste: z, c or v in either case, with ctrl or meta
    held. *)
Definition isNativeShortcut (e : KeyboardEvent) : Prop :=
  (ctrlKey e = true \/ metaKey e = true) /\
  (key e = [0x7A] \/ key e = [0x5A] \/
   key e = [0x63] \/ key e = [0x43] \/
   key e = [0x76] \/ key e = [0x56])%N.

(** A keydown is forwarded when the handler, run with the [showOverlay]
    value of the current render, dispatches a copy of it to the input. *)
Definition forwarded (type : CellType) (e : KeyboardEvent) (w : World) : Prop :=
  dispatched (run (handleContainerKeyDown type (showOverlay w) e) w) =
  dispatched w ++ [newKeyboardEvent e].

(** The three exemption tests of lines 172-184, taken together. *)
Definition exempted (e : KeyboardEvent) : bool :=
  (strictEquals (toLowerCase (key e)) str_z && (ctrlKey e || metaKey e)) ||
  (strictEquals (toLowerCase (key e)) str_c && (ctrlKey e || metaKey e)) ||
  (strictEquals (toLowerCase (key e)) str_v && (ctrlKey e || metaKey e)).

(** The forwarding condition with the three conjuncts only, and "any
    single character" for a text cell. *)
Definition forwardConditionAsStated (type : CellType) (e : KeyboardEvent)
    (w : World) : Prop :=
  inputRef w <> None /\
  keyClassAnyCharacter type (key e) /\
  showOverlay w = true.

(** The forwarding condition of the handler: an input is mounted, the key is
    in the cell's class, the overlay is showing, and the keystroke is not
    one of the native shortcuts. *)
Definition forwardCondition (type : CellType) (e : KeyboardEvent)
    (w : World) : Prop :=
  inputRef w <> None /\
  keyClass type (key e) /\
  showOverlay w = true /\
  ~ isNativeShortcut e.

Definition isLetter (c : N) : Prop :=
  (0x41 <= c <= 0x5A \/ 0x61 <= c <= 0x7A)%N.

(** The outcome of a plain click on the cell at [coords]. *)
Definition singleCellSelection (coords : CellCoords) (w : World) : Prop :=
  anchor (grid w) = Some coords /\
  rangeEnd (grid w) = Some coords /\
  isSelecting (grid w) = true /\
  activeElement w = Some FocusContainer.

(** ** Sample worlds and events *)

(** A coordinator with the single-cell range [a] and no gesture in
    progress. *)
Definition idleGrid (a : option CellCoords) : Coordinator :=
  mkCoordinator a a false false.

(** A cell in Overlay mode whose container and input are mounted. *)
Definition mountedWorld (g : Coordinator) : World :=
  mkWorld g true (Some Div) (Some HTMLInputElement) None false [] false false.

(** The same cell with an input but no container element behind
    [containerRef]. *)
Definition noContainerWorld (g : Coordinator) : World :=
  mkWorld g true None (Some HTMLInputElement) None false [] false false.

(** The same cell with a container but nothing behind [inputRef]. *)
Definition noInputWorld (g : Coordinator) : World :=
  mkWorld g true (Some Div) None None false [] false false.

Definition click : MouseEvent := mkMouse 1 false.
Definition shiftClick : MouseEvent := mkMouse 1 true.
Definition doubleClick : MouseEvent := mkMouse 2 false.

Definition key_5 : KeyboardEvent := mkKey [0x35%N] false false.
Definition key_a : KeyboardEvent := mkKey [0x61%N] false false.
Definition key_ctrl_c : KeyboardEvent := mkKey str_c true false.
Definition key_meta_Z : KeyboardEvent := mkKey [0x5A%N] false true.
Definition key_newline : KeyboardEvent := mkKey [0x0A%N] false false.

(** ** The anchor focus effect *)

(** Lines 209-213, the body of the effect that runs when [isAnchor]
    changes. [contains] is the answer of the DOM to
    [container.contains(document.activeElement)]; with no container the
    optional call yields [undefined], the negation holds, and the optional
    [focus()] does nothing. *)
Definition anchorFocusEffect (isAnchor : bool)
    (contains : HTMLDivElement -> option Focused -> bool) : Handler unit :=
  container <- reads containerRef ;;
  active <- reads activeElement ;;
  when (isAnchor &&
        negb match container with
             | Some d => contains d active
             | None => false
             end)
    (match container with
     | Some _ => focus FocusContainer
     | None => ret tt
     end).

(** ** The query tool hook *)

(** A DOM node, by its identity. *)
Definition DomNode := N.

(** A React ref object as one render sees it: the identity of the object
    (what the dependency list of an effect compares) and its [current]
    value when the effects of that render run. *)
Record RefObject := mkRefObject {
  ref_identity : N;
  ref_current : option DomNode
}.

(** [GridQueryTool] of [./models] is not part of the sources; the hook only
    constructs it, so a tool is the container it was constructed with. *)
Record GridQueryTool := mkGridQueryTool { tool_container : DomNode }.

(** What React keeps for one instance of [useGridQueryTool] between
    renders: [queryToolRef.current] (line 257) and the dependency the
    effect last ran with ([None] before the first render). *)
Record QueryToolHook := mkQueryToolHook {
  queryToolRef : option GridQueryTool;
  effectDeps : option N
}.

(** The hook instance before its first render: [useRef(null)]. *)
Definition mountQueryToolHook : QueryToolHook := mkQueryToolHook None None.

(** Lines 260-262, the body of the effect. *)
Definition queryToolEffect (containerRef : RefObject) (h : QueryToolHook)
  : QueryToolHook :=
  match ref_current containerRef with
  | Some el => mkQueryToolHook (Some (mkGridQueryTool el)) (effectDeps h)
  | None => h
  end.

(** [useEffect(..., [containerRef])]: the effect runs after the first render
    and after every render whose [containerRef] is another object than at
    the last run. *)
Definition depsChanged (deps : option N) (containerRef : RefObject) : bool :=
  match deps with
  | None => true
  | Some i => negb (i =? ref_identity containerRef)%N
  end.

(** Lines 254-266, one render: the value returned (line 265, read during
    the render) and the hook instance once the effects of the render have
    run. *)
Definition useGridQueryTool (containerRef : RefObject) (h : QueryToolHook)
  : option GridQueryTool * QueryToolHook :=
  (queryToolRef h,
   if depsChanged (effectDeps h) containerRef
   then
     let h' := queryToolEffect containerRef h in
     mkQueryToolHook (queryToolRef h') (Some (ref_identity containerRef))
   else h).

(** A sequence of renders of one hook instance: the values returned, in
    order, and the instance left behind. *)
Fixpoint renderAll (renders : list RefObject) (h : QueryToolHook)
  : list (option GridQueryTool) * QueryToolHook :=
  match renders with
  | [] => ([], h)
  | r :: rest =>
      let (v, h') := useGridQueryTool r h in
      let (vs, h'') := renderAll rest h' in
      (v :: vs, h'')
  end.

(** The DOM answer in which a container contains itself and the input
    inside it, and nothing else. *)
Definition containsOwnElements (_ : HTMLDivElement) (active : option Focused)
  : bool :=
  match active with
  | Some _ => true
  | None => false
  end.

Definition key_Enter : KeyboardEvent :=
  mkKey [0x45; 0x6E; 0x74; 0x65; 0x72]%N false false.

(** * Properties *)

(** ** Basic facts about the type tag and the render props *)

Lemma CellType_eqb_eq (a b : CellType) : CellType_eqb a b = true <-> a = b.
Proof. destruct a, b; simpl; split; congruence. Qed.

Lemma fieldWithoutOverlay_spec (type : CellType) :
  fieldWithoutOverlay type = true <-> type = TBoolean \/ type = TSelect.
Proof.
  unfold fieldWithoutOverlay. rewrite orb_true_iff, !CellType_eqb_eq. tauto.
Qed.

Lemma innerOnMouseDown_boolean (type : CellType) (coords : CellCoords)
    (h : MouseEvent -> Handler unit) :
  innerOnMouseDown type coords = Some h ->
  type = TBoolean /\ h = handleBooleanInnerMouseDown coords.
Proof.
  unfold innerOnMouseDown. destruct type; simpl; intros H; inversion H; auto.
Qed.

(** The render props of the hook carry exactly the handlers of
    [mouseDownHandler]. *)
Lemma renderProps_mouseDown (gen : CellCoords -> string)
    (ctx : DataGridContextValue) (field : string) (r c : N)
    (type : CellType) (so : bool) :
  exists res,
    useDataGridCell gen (Some ctx) field r c type so = inr res /\
    Some (overlay_onMouseDown (container (renderProps res))) =
      mouseDownHandler type (mkCoords r c) (ctx_anchor ctx) OnOverlay /\
    inner_onMouseDown (container (renderProps res)) =
      mouseDownHandler type (mkCoords r c) (ctx_anchor ctx) OnInnerControl.
Proof. eexists. split; [reflexivity | split; reflexivity]. Qed.

(** ** Focus and blur of the input *)

(** C6: an input blur leaves the cell's [showOverlay] state true and the
    coordinator's [isEditing] flag false; an input focus leaves [showOverlay]
    false and [isEditing] true. Nothing else of the world changes. *)
Theorem input_blur_focus_bookkeeping (w : World) :
  let wb := run handleInputBlur w in
  let wf := run handleInputFocus w in
  (showOverlay wb = true /\ isEditing (grid wb) = false) /\
  (showOverlay wf = false /\ isEditing (grid wf) = true) /\
  wb = with_grid (fun g => mkCoordinator (anchor g) (rangeEnd g) (isSelecting g) false)
         (with_showOverlay true w) /\
  wf = with_grid (fun g => mkCoordinator (anchor g) (rangeEnd g) (isSelecting g) true)
         (with_showOverlay false w).
Proof.
  cbv zeta. repeat split.
Qed.

(** ** The overlay flag of the render props *)

(** C7: for a boolean or select cell, every render under a provider returns
    render props whose [showOverlay] is false, whatever the context reports
    (anchor, selection queries) and whatever the local [showOverlay] state
    is; the suppression is [fieldWithoutOverlay], a function of the type tag
    alone. *)
Theorem boolean_select_never_show_overlay (gen : CellCoords -> string)
    (ctx : DataGridContextValue) (field : string) (r c : N)
    (type : CellType) (so : bool) :
  type = TBoolean \/ type = TSelect ->
  fieldWithoutOverlay type = true /\
  exists res,
    useDataGridCell gen (Some ctx) field r c type so = inr res /\
    c_showOverlay (container (renderProps res)) = false.
Proof.
  intros Hty. apply fieldWithoutOverlay_spec in Hty. split; [exact Hty|].
  eexists. split; [reflexivity|]. simpl. unfold renderedShowOverlay.
  now rewrite Hty.
Qed.

Lemma boolean_select_never_show_overlay_witness :
  (TBoolean = TBoolean \/ TBoolean = TSelect) /\
  fieldWithoutOverlay TBoolean = true /\
  exists res,
    useDataGridCell (fun _ => "cell"%string)
      (Some (mkContext (Some (mkCoords 0 0)) (fun _ => true) (fun _ => true)))
      "title"%string 0%N 0%N TBoolean true = inr res /\
    c_showOverlay (container (renderProps res)) = false.
Proof.
  split; [left; reflexivity|].
  apply (boolean_select_never_show_overlay (fun _ => "cell"%string)
           (mkContext (Some (mkCoords 0 0)) (fun _ => true) (fun _ => true))
           "title"%string 0%N 0%N TBoolean true).
  left; reflexivity.
Defined.

(** ** Use outside a provider *)

(** C9: without a provider ([useContext] returns nothing) the context
    accessor throws an [Error] that names the accessor and the missing
    provider, and a render of the cell hook ends with that same error handed
    to its caller: it returns no result, so no render props are built on a
    missing context, and nothing catches the error to try again. *)
Theorem hook_without_provider_throws (gen : CellCoords -> string)
    (field : string) (r c : N) (type : CellType) (so : bool) :
  let err := Error "useDataGridContext must be used within a DataGridContextProvider" in
  useDataGridContext None = inl err /\
  useDataGridCell gen None field r c type so = inl err /\
  (forall res, useDataGridCell gen None field r c type so <> inr res).
Proof.
  cbv zeta. repeat split. intros res H. discriminate H.
Qed.

(** ** The fixture helper *)

(** C10: for every service, store and argument (a list, or none for the
    default list), the helper settles exactly as the service's
    [createAuthIdentities] call on that list does and leaves the store that
    single call left: a fulfilled list comes back as it is, a rejection comes
    back with the same reason. *)
Theorem createAuthIdentities_delegates {Store AuthIdentity : Type}
    (service : IAuthModuleService Store AuthIdentity)
    (userData : option (list AuthIdentityInput)) (s : Store) :
  let sent := match userData with Some l => l | None => defaultUserData end in
  createAuthIdentities service userData s =
    service_createAuthIdentities (IAuthModuleService := service) sent s /\
  match service_createAuthIdentities (IAuthModuleService := service) sent s with
  | (Fulfilled records, s') =>
      createAuthIdentities service userData s = (Fulfilled records, s')
  | (Rejected reason, s') =>
      createAuthIdentities service userData s = (Rejected reason, s')
  end.
Proof.
  cbv zeta. unfold createAuthIdentities, await. simpl.
  destruct (service_createAuthIdentities _ s) as [[records | reason] s'];
    split; reflexivity.
Qed.

(** ** Pointer gestures *)

(** Unfolds a pointer handler down to the primitive state updates. *)
Ltac step_handler :=
  unfold run, handleOverlayMouseDown, handleBooleanInnerMouseDown,
    preventDefault, stopPropagation, setShowOverlay, focus, setRangeEnd,
    setSingleRange, setIsSelecting, when, reads, writes, return_;
  cbn.

Lemma detail_not_double (e : MouseEvent) :
  detail e <> 2%Z -> (detail e =? 2)%Z = false.
Proof. intros H. now apply Z.eqb_neq. Qed.

(** The overlay handler on a double-click over a mounted input. *)
Lemma overlay_double_click (coords : CellCoords) (a : option CellCoords)
    (e : MouseEvent) (w : World) (el : HTMLElement) :
  detail e = 2%Z ->
  inputRef w = Some el ->
  handleOverlayMouseDown coords a e w =
  (Returned,
   with_activeElement FocusInput
     (with_showOverlay false
        (with_propagationStopped (with_defaultPrevented w)))).
Proof.
  intros Hd Hin. step_handler. rewrite Hd. cbn. now rewrite Hin.
Qed.

(** The inner-control handler on a double-click over a mounted input. *)
Lemma boolean_double_click (coords : CellCoords) (e : MouseEvent) (w : World)
    (el : HTMLElement) :
  detail e = 2%Z ->
  inputRef w = Some el ->
  handleBooleanInnerMouseDown coords e w =
  (Returned,
   with_activeElement FocusInput
     (with_propagationStopped (with_defaultPrevented w))).
Proof.
  intros Hd Hin. step_handler. rewrite Hd. cbn. now rewrite Hin.
Qed.

(** The overlay handler on a shift-click in the anchor's column. *)
Lemma overlay_shift_click_same_column (coords : CellCoords)
    (a : option CellCoords) (e : MouseEvent) (w : World) :
  detail e <> 2%Z ->
  shiftKey e = true ->
  colMatchesAnchor coords a = true ->
  handleOverlayMouseDown coords a e w =
  (Returned,
   with_grid
     (fun g => mkCoordinator (anchor g) (Some coords) (isSelecting g) (isEditing g))
     (with_propagationStopped (with_defaultPrevented w))).
Proof.
  intros Hd Hs Hc. step_handler.
  rewrite (detail_not_double e Hd), Hs, Hc. reflexivity.
Qed.

(** The overlay handler on a shift-click outside the anchor's column does
    what it does on the same click without shift. *)
Lemma overlay_shift_click_other_column (coords : CellCoords)
    (a : option CellCoords) (e : MouseEvent) (w : World) :
  colMatchesAnchor coords a = false ->
  handleOverlayMouseDown coords a e w =
  handleOverlayMouseDown coords a (mkMouse (detail e) false) w.
Proof.
  intros Hc. step_handler. rewrite Hc.
  destruct (detail e =? 2)%Z, (inputRef w), (shiftKey e); reflexivity.
Qed.

(** Both handlers on a plain click. *)
Lemma plain_click_run (type : CellType) (coords : CellCoords)
    (a : option CellCoords) (target : MouseDownTarget)
    (h : MouseEvent -> Handler unit) (e : MouseEvent) (w : World) :
  mouseDownHandler type coords a target = Some h ->
  detail e <> 2%Z ->
  shiftKey e = false ->
  run (h e) w =
  match containerRef w with
  | Some _ =>
      with_activeElement FocusContainer
        (with_grid
           (fun g => mkCoordinator (Some coords) (Some coords) true (isEditing g))
           (with_propagationStopped (with_defaultPrevented w)))
  | None => with_propagationStopped (with_defaultPrevented w)
  end.
Proof.
  intros Hh Hd Hs.
  assert (h = handleOverlayMouseDown coords a \/
          h = handleBooleanInnerMouseDown coords) as [-> | ->].
  { destruct target; simpl in Hh.
    - left; congruence.
    - right; now apply innerOnMouseDown_boolean in Hh. }
  all: step_handler; rewrite (detail_not_double e Hd), Hs; cbn;
    destruct (containerRef w); reflexivity.
Qed.

(** C3: a double-click on a cell with a mounted input, through either
    mouse-down handler of the render props: the handler cancels the default
    action and the bubbling and returns without reaching the range logic, so
    the coordinator (range, anchor, [isSelecting]) is untouched; afterwards
    the overlay flag of the next render is false and the input holds the
    focus. *)
Theorem double_click_enters_direct_edit (type : CellType)
    (coords : CellCoords) (a : option CellCoords) (target : MouseDownTarget)
    (h : MouseEvent -> Handler unit) (e : MouseEvent) (w : World)
    (el : HTMLElement) :
  mouseDownHandler type coords a target = Some h ->
  detail e = 2%Z ->
  inputRef w = Some el ->
  fst (h e w) = Returned /\
  defaultPrevented (run (h e) w) = true /\
  propagationStopped (run (h e) w) = true /\
  grid (run (h e) w) = grid w /\
  renderedShowOverlay type (showOverlay (run (h e) w)) = false /\
  activeElement (run (h e) w) = Some FocusInput.
Proof.
  intros Hh Hd Hin. unfold run. destruct target; simpl in Hh.
  - injection Hh as <-. rewrite (overlay_double_click coords a e w el Hd Hin).
    cbn. unfold renderedShowOverlay.
    destruct (fieldWithoutOverlay type); repeat split.
  - apply innerOnMouseDown_boolean in Hh. destruct Hh as [-> ->].
    rewrite (boolean_double_click coords e w el Hd Hin). repeat split.
Qed.

Lemma double_click_enters_direct_edit_witness :
  fst (handleOverlayMouseDown (mkCoords 1 2) (Some (mkCoords 0 0)) doubleClick
         (mountedWorld (idleGrid (Some (mkCoords 0 0))))) = Returned /\
  defaultPrevented
    (run (handleOverlayMouseDown (mkCoords 1 2) (Some (mkCoords 0 0)) doubleClick)
         (mountedWorld (idleGrid (Some (mkCoords 0 0))))) = true /\
  propagationStopped
    (run (handleOverlayMouseDown (mkCoords 1 2) (Some (mkCoords 0 0)) doubleClick)
         (mountedWorld (idleGrid (Some (mkCoords 0 0))))) = true /\
  grid
    (run (handleOverlayMouseDown (mkCoords 1 2) (Some (mkCoords 0 0)) doubleClick)
         (mountedWorld (idleGrid (Some (mkCoords 0 0))))) =
  grid (mountedWorld (idleGrid (Some (mkCoords 0 0)))) /\
  renderedShowOverlay TText
    (showOverlay
       (run (handleOverlayMouseDown (mkCoords 1 2) (Some (mkCoords 0 0)) doubleClick)
            (mountedWorld (idleGrid (Some (mkCoords 0 0)))))) = false /\
  activeElement
    (run (handleOverlayMouseDown (mkCoords 1 2) (Some (mkCoords 0 0)) doubleClick)
         (mountedWorld (idleGrid (Some (mkCoords 0 0))))) = Some FocusInput.
Proof.
  apply (double_click_enters_direct_edit TText (mkCoords 1 2)
           (Some (mkCoords 0 0)) OnOverlay
           (handleOverlayMouseDown (mkCoords 1 2) (Some (mkCoords 0 0)))
           doubleClick (mountedWorld (idleGrid (Some (mkCoords 0 0))))
           HTMLInputElement);
    reflexivity.
Defined.

(** The inner-control handler on a shift-click: the range end moves
    whatever the anchor's column is. *)
Lemma boolean_shift_click (coords : CellCoords) (e : MouseEvent) (w : World) :
  detail e <> 2%Z ->
  shiftKey e = true ->
  handleBooleanInnerMouseDown coords e w =
  (Returned,
   with_grid
     (fun g => mkCoordinator (anchor g) (Some coords) (isSelecting g) (isEditing g))
     (with_propagationStopped (with_defaultPrevented w))).
Proof.
  intros Hd Hs. step_handler. rewrite (detail_not_double e Hd), Hs. reflexivity.
Qed.

(** C1: the inner-control handler of a boolean cell at (1,2), shift-clicked
    while the anchor is (0,0), a different column: the handler moves the
    range end to (1,2) and leaves the anchor, [isSelecting] and the focus as
    they were, where a plain click on the same cell makes (1,2) the anchor
    and sets [isSelecting]; the overlay handler on the same shift-click does
    what it does on the plain click. *)
Theorem boolean_shift_click_other_column :
  colMatchesAnchor (mkCoords 1 2) (Some (mkCoords 0 0)) = false /\
  mouseDownHandler TBoolean (mkCoords 1 2) (Some (mkCoords 0 0)) OnInnerControl =
    Some (handleBooleanInnerMouseDown (mkCoords 1 2)) /\
  grid (run (handleBooleanInnerMouseDown (mkCoords 1 2) shiftClick)
            (mountedWorld (idleGrid (Some (mkCoords 0 0))))) =
    mkCoordinator (Some (mkCoords 0 0)) (Some (mkCoords 1 2)) false false /\
  activeElement (run (handleBooleanInnerMouseDown (mkCoords 1 2) shiftClick)
                     (mountedWorld (idleGrid (Some (mkCoords 0 0))))) = None /\
  grid (run (handleBooleanInnerMouseDown (mkCoords 1 2) click)
            (mountedWorld (idleGrid (Some (mkCoords 0 0))))) =
    mkCoordinator (Some (mkCoords 1 2)) (Some (mkCoords 1 2)) true false /\
  activeElement (run (handleBooleanInnerMouseDown (mkCoords 1 2) click)
                     (mountedWorld (idleGrid (Some (mkCoords 0 0))))) =
    Some FocusContainer /\
  run (handleOverlayMouseDown (mkCoords 1 2) (Some (mkCoords 0 0)) shiftClick)
      (mountedWorld (idleGrid (Some (mkCoords 0 0)))) =
  run (handleOverlayMouseDown (mkCoords 1 2) (Some (mkCoords 0 0)) click)
      (mountedWorld (idleGrid (Some (mkCoords 0 0)))).
Proof.
  repeat split.
Qed.

(** C5, as stated, fails where [containerRef] is empty: a plain click on the
    overlay of the cell at (1,2) leaves no single-cell selection. *)
Lemma plain_click_without_container_counterexample :
  detail click <> 2%Z /\
  shiftKey click = false /\
  ~ singleCellSelection (mkCoords 1 2)
      (run (handleOverlayMouseDown (mkCoords 1 2) None click)
           (noContainerWorld (idleGrid None))).
Proof.
  split; [discriminate|]. split; [reflexivity|].
  intros [Ha _]. vm_compute in Ha. discriminate Ha.
Qed.

(** C5, amended: a plain click (no shift, repeat count other than 2)
    through either mouse-down handler cancels the default action and the
    bubbling; when the container element is mounted it leaves the
    single-cell range at the clicked cell (anchor and end), [isSelecting]
    true and the focus on the container; when it is not, the coordinator
    and the focus stay as they were. *)
Theorem plain_click_selects_cell (type : CellType) (coords : CellCoords)
    (a : option CellCoords) (target : MouseDownTarget)
    (h : MouseEvent -> Handler unit) (e : MouseEvent) (w : World) :
  mouseDownHandler type coords a target = Some h ->
  detail e <> 2%Z ->
  shiftKey e = false ->
  defaultPrevented (run (h e) w) = true /\
  propagationStopped (run (h e) w) = true /\
  match containerRef w with
  | Some _ => singleCellSelection coords (run (h e) w)
  | None =>
      grid (run (h e) w) = grid w /\
      activeElement (run (h e) w) = activeElement w
  end.
Proof.
  intros Hh Hd Hs.
  rewrite (plain_click_run type coords a target h e w Hh Hd Hs).
  unfold singleCellSelection.
  destruct (containerRef w); repeat split.
Qed.

Lemma plain_click_selects_cell_witness :
  defaultPrevented
    (run (handleOverlayMouseDown (mkCoords 1 2) (Some (mkCoords 0 0)) click)
         (mountedWorld (idleGrid (Some (mkCoords 0 0))))) = true /\
  propagationStopped
    (run (handleOverlayMouseDown (mkCoords 1 2) (Some (mkCoords 0 0)) click)
         (mountedWorld (idleGrid (Some (mkCoords 0 0))))) = true /\
  singleCellSelection (mkCoords 1 2)
    (run (handleOverlayMouseDown (mkCoords 1 2) (Some (mkCoords 0 0)) click)
         (mountedWorld (idleGrid (Some (mkCoords 0 0))))).
Proof.
  apply (plain_click_selects_cell TText (mkCoords 1 2) (Some (mkCoords 0 0))
           OnOverlay
           (handleOverlayMouseDown (mkCoords 1 2) (Some (mkCoords 0 0)))
           click (mountedWorld (idleGrid (Some (mkCoords 0 0)))));
    [reflexivity | discriminate | reflexivity].
Defined.

(** C8: a double-click on the overlay of a cell with nothing behind
    [inputRef] runs exactly as the single click with the same shift state:
    [showOverlay] keeps its value, the input is not focused, and the
    coordinator follows the shift-click or plain-click rule. On the cell at
    (1,2) with anchor (0,0) and a mounted container, that changes the
    anchor, the range end and [isSelecting]. *)
Theorem double_click_without_input_falls_through (coords : CellCoords)
    (a : option CellCoords) (e : MouseEvent) (w : World) :
  detail e = 2%Z ->
  inputRef w = None ->
  handleOverlayMouseDown coords a e w =
    handleOverlayMouseDown coords a (mkMouse 1 (shiftKey e)) w /\
  showOverlay (run (handleOverlayMouseDown coords a e) w) = showOverlay w /\
  (activeElement (run (handleOverlayMouseDown coords a e) w) = activeElement w \/
   activeElement (run (handleOverlayMouseDown coords a e) w) = Some FocusContainer) /\
  grid (run (handleOverlayMouseDown coords a e) w) =
    (if shiftKey e && colMatchesAnchor coords a
     then mkCoordinator (anchor (grid w)) (Some coords)
            (isSelecting (grid w)) (isEditing (grid w))
     else match containerRef w with
          | Some _ => mkCoordinator (Some coords) (Some coords) true
                        (isEditing (grid w))
          | None => grid w
          end) /\
  (exists w0,
     inputRef w0 = None /\
     anchor (grid (run (handleOverlayMouseDown (mkCoords 1 2)
                          (Some (mkCoords 0 0)) doubleClick) w0)) <>
       anchor (grid w0) /\
     rangeEnd (grid (run (handleOverlayMouseDown (mkCoords 1 2)
                            (Some (mkCoords 0 0)) doubleClick) w0)) <>
       rangeEnd (grid w0) /\
     isSelecting (grid (run (handleOverlayMouseDown (mkCoords 1 2)
                               (Some (mkCoords 0 0)) doubleClick) w0)) <>
       isSelecting (grid w0)).
Proof.
  intros Hd Hin.
  destruct w as [g so cr ir ae sel dsp dp ps]; simpl in Hin; subst ir.
  split; [|split; [|split; [|split]]].
  - step_handler. rewrite Hd. reflexivity.
  - step_handler. rewrite Hd. cbn.
    destruct (shiftKey e), (colMatchesAnchor coords a), cr; reflexivity.
  - step_handler. rewrite Hd. cbn.
    destruct (shiftKey e), (colMatchesAnchor coords a), cr; cbn; auto.
  - step_handler. rewrite Hd. cbn.
    destruct (shiftKey e), (colMatchesAnchor coords a), cr; cbn;
      destruct g; reflexivity.
  - exists (noInputWorld (idleGrid (Some (mkCoords 0 0)))).
    repeat split; discriminate.
Qed.

Lemma double_click_without_input_falls_through_witness :
  handleOverlayMouseDown (mkCoords 1 2) (Some (mkCoords 0 0)) doubleClick
      (noInputWorld (idleGrid (Some (mkCoords 0 0)))) =
    handleOverlayMouseDown (mkCoords 1 2) (Some (mkCoords 0 0))
      (mkMouse 1 (shiftKey doubleClick))
      (noInputWorld (idleGrid (Some (mkCoords 0 0)))) /\
  grid (run (handleOverlayMouseDown (mkCoords 1 2) (Some (mkCoords 0 0)) doubleClick)
            (noInputWorld (idleGrid (Some (mkCoords 0 0))))) =
    mkCoordinator (Some (mkCoords 1 2)) (Some (mkCoords 1 2)) true false.
Proof.
  pose proof (double_click_without_input_falls_through (mkCoords 1 2)
                (Some (mkCoords 0 0)) doubleClick
                (noInputWorld (idleGrid (Some (mkCoords 0 0))))
                eq_refl eq_refl) as [Hsame [_ [_ [Hgrid _]]]].
  split; [exact Hsame | exact Hgrid].
Defined.

(** ** Keystrokes *)

Lemma isLineTerminator_spec (c : N) :
  isLineTerminator c = true <->
  (c = 0x0A \/ c = 0x0D \/ c = 0x2028 \/ c = 0x2029)%N.
Proof.
  unfold isLineTerminator. rewrite !orb_true_iff, !N.eqb_eq. tauto.
Qed.

Lemma numberCharacterRegex_test_spec (k : JsString) :
  numberCharacterRegex_test k = true <-> isDigitKey k.
Proof.
  unfold isDigitKey. split.
  - destruct k as [|c [|d k']]; simpl; try discriminate.
    intros H. apply andb_true_iff in H. destruct H as [Hlo Hhi].
    apply N.leb_le in Hlo, Hhi. exists c. auto.
  - intros [c [-> [Hlo Hhi]]]. simpl.
    apply andb_true_iff. split; now apply N.leb_le.
Qed.

Lemma textCharacterRegex_test_spec (k : JsString) :
  textCharacterRegex_test k = true <->
  isSingleCodePoint k /\ ~ isLineTerminatorKey k.
Proof.
  unfold isSingleCodePoint, isLineTerminatorKey. split.
  - destruct k as [|c [|d [|x k']]]; simpl; try discriminate.
    + intros H. apply negb_true_iff in H. split.
      * left. now exists c.
      * intros [c' [Hk Hc']]. injection Hk as <-.
        apply isLineTerminator_spec in Hc'. congruence.
    + intros H. apply andb_true_iff in H. split.
      * right. exists c, d. tauto.
      * intros [c' [Hk _]]. discriminate Hk.
  - intros [[[c ->] | [h [l [-> [Hh Hl]]]]] Hnot]; simpl.
    + apply negb_true_iff. destruct (isLineTerminator c) eqn:E; [|reflexivity].
      exfalso. apply Hnot. exists c. split; [reflexivity|].
      now apply isLineTerminator_spec.
    + now rewrite Hh, Hl.
Qed.

(** [validateKeyStroke] accepts exactly the keys of the cell's class. *)
Lemma validateKeyStroke_spec (type : CellType) (k : JsString) :
  validateKeyStroke type k = true <-> keyClass type k.
Proof.
  destruct type; simpl.
  - apply textCharacterRegex_test_spec.
  - apply numberCharacterRegex_test_spec.
  - split; [discriminate | tauto].
  - split; [discriminate | tauto].
Qed.

(** The lower-cased key equals a one-letter string exactly when the key is
    that letter in either case. *)
Lemma lower_equals_letter (k : JsString) (c : N) :
  (0x61 <= c <= 0x7A)%N ->
  strictEquals (toLowerCase k) [c] = true <-> k = [c] \/ k = [(c - 0x20)%N].
Proof.
  intros Hc. split.
  - destruct k as [|x [|y k']]; simpl; try discriminate.
    + destruct ((0x41 <=? x) && (x <=? 0x5A))%N eqn:E; rewrite andb_true_r;
        intros H; apply N.eqb_eq in H.
      * right. f_equal. lia.
      * left. now subst.
    + rewrite andb_false_r. discriminate.
  - intros [-> | ->]; simpl; rewrite andb_true_r.
    + replace (c <=? 0x5A)%N with false by (symmetry; apply N.leb_gt; lia).
      rewrite andb_false_r. apply N.eqb_refl.
    + replace (0x41 <=? c - 0x20)%N with true by (symmetry; apply N.leb_le; lia).
      replace (c - 0x20 <=? 0x5A)%N with true by (symmetry; apply N.leb_le; lia).
      simpl. apply N.eqb_eq. lia.
Qed.

Lemma exempted_spec (e : KeyboardEvent) :
  exempted e = true <-> isNativeShortcut e.
Proof.
  unfold exempted, isNativeShortcut, str_z, str_c, str_v.
  rewrite !orb_true_iff, !andb_true_iff, !orb_true_iff.
  rewrite !lower_equals_letter by lia. simpl. tauto.
Qed.

(** Unfolds the keyboard handler down to the primitive state updates. *)
Ltac step_key_handler :=
  unfold run, handleContainerKeyDown, focus, setShowOverlay, select,
    dispatchEvent, when, reads, writes, return_;
  cbn.

(** What the keyboard handler does, as one case distinction. *)
Lemma handleContainerKeyDown_cases (type : CellType) (so : bool)
    (e : KeyboardEvent) (w : World) :
  handleContainerKeyDown type so e w =
  match inputRef w with
  | None => (Returned, w)
  | Some el =>
      if validateKeyStroke type (key e) && so && negb (exempted e)
      then
        let w1 := with_showOverlay false (with_activeElement FocusInput w) in
        (Next tt,
         with_dispatched (newKeyboardEvent e)
           (if isHTMLInputElement el then with_inputSelected w1 else w1))
      else (Returned, w)
  end.
Proof.
  unfold exempted. step_key_handler.
  destruct (inputRef w) as [el|]; [|reflexivity].
  destruct (validateKeyStroke type (key e)), so; cbn; try reflexivity.
  destruct (strictEquals (toLowerCase (key e)) str_z),
           (strictEquals (toLowerCase (key e)) str_c),
           (strictEquals (toLowerCase (key e)) str_v),
           (ctrlKey e), (metaKey e); cbn; try reflexivity;
    destruct el; reflexivity.
Qed.

Lemma app_singleton_neq {A : Type} (l : list A) (x : A) : l <> l ++ [x].
Proof.
  intros H. apply (f_equal (@List.length A)) in H.
  rewrite length_app in H. simpl in H. lia.
Qed.

(** C4: a keydown whose key is z, c or v in either case, with ctrl or meta
    held, makes the handler return at once: no dispatch, no focus change,
    the overlay state untouched, for every cell type, every [showOverlay]
    value and every world. *)
Theorem native_shortcuts_not_forwarded (type : CellType) (so : bool)
    (e : KeyboardEvent) (w : World) :
  isNativeShortcut e ->
  handleContainerKeyDown type so e w = (Returned, w) /\
  dispatched (run (handleContainerKeyDown type so e) w) = dispatched w /\
  showOverlay (run (handleContainerKeyDown type so e) w) = showOverlay w /\
  activeElement (run (handleContainerKeyDown type so e) w) = activeElement w.
Proof.
  intros Hs. apply exempted_spec in Hs.
  assert (handleContainerKeyDown type so e w = (Returned, w)) as Hret.
  { rewrite handleContainerKeyDown_cases, Hs.
    rewrite andb_false_r. now destruct (inputRef w). }
  unfold run. rewrite Hret. repeat split.
Qed.

Lemma native_shortcuts_not_forwarded_witness :
  handleContainerKeyDown TText true key_ctrl_c (mountedWorld (idleGrid None)) =
    (Returned, mountedWorld (idleGrid None)) /\
  handleContainerKeyDown TText true key_meta_Z (mountedWorld (idleGrid None)) =
    (Returned, mountedWorld (idleGrid None)).
Proof.
  split.
  - apply (native_shortcuts_not_forwarded TText true key_ctrl_c
             (mountedWorld (idleGrid None))).
    split; [left; reflexivity | right; right; left; reflexivity].
  - apply (native_shortcuts_not_forwarded TText true key_meta_Z
             (mountedWorld (idleGrid None))).
    split; [right; reflexivity | right; left; reflexivity].
Defined.

(** Forwarding, decided on the handler's three tests. *)
Lemma forwarded_iff_tests (type : CellType) (e : KeyboardEvent) (w : World) :
  forwarded type e w <->
  (exists el, inputRef w = Some el) /\
  validateKeyStroke type (key e) && showOverlay w && negb (exempted e) = true.
Proof.
  unfold forwarded, run. rewrite handleContainerKeyDown_cases.
  destruct (inputRef w) as [el|]; simpl.
  - destruct (validateKeyStroke type (key e) && showOverlay w && negb (exempted e));
      simpl.
    + split; [intros _; split; [now exists el | reflexivity]|].
      intros _. now destruct (isHTMLInputElement el).
    + split; [intros H; now apply app_singleton_neq in H|].
      intros [_ H]; discriminate H.
  - split; [intros H; now apply app_singleton_neq in H|].
    intros [[el H] _]; discriminate H.
Qed.

(** A keydown that is not forwarded changes nothing. *)
Lemma not_forwarded_returns (type : CellType) (e : KeyboardEvent) (w : World) :
  forwarded type e w \/
  handleContainerKeyDown type (showOverlay w) e w = (Returned, w).
Proof.
  destruct (inputRef w) as [el|] eqn:Hin.
  - destruct (validateKeyStroke type (key e) && showOverlay w && negb (exempted e))
      eqn:Ht.
    + left. apply forwarded_iff_tests. split; [now exists el | exact Ht].
    + right. now rewrite handleContainerKeyDown_cases, Hin, Ht.
  - right. now rewrite handleContainerKeyDown_cases, Hin.
Qed.

Lemma forwarded_iff_condition (type : CellType) (e : KeyboardEvent) (w : World) :
  forwarded type e w <-> forwardCondition type e w.
Proof.
  rewrite forwarded_iff_tests. unfold forwardCondition.
  rewrite !andb_true_iff, negb_true_iff, validateKeyStroke_spec.
  rewrite <- exempted_spec, not_true_iff_false.
  assert ((exists el, inputRef w = Some el) <-> inputRef w <> None) as ->.
  { destruct (inputRef w) as [el|]; split; try congruence.
    - intros _. now exists el.
    - intros [el H]. discriminate H. }
  tauto.
Qed.

(** C2, as stated, fails on a text cell in Overlay mode with a mounted
    input: ctrl+c meets the three conditions and is not forwarded, and so
    does the single character LF. *)
Lemma forwarding_iff_counterexample :
  (forwardConditionAsStated TText key_ctrl_c (mountedWorld (idleGrid None)) /\
   ~ forwarded TText key_ctrl_c (mountedWorld (idleGrid None))) /\
  (forwardConditionAsStated TText key_newline (mountedWorld (idleGrid None)) /\
   ~ forwarded TText key_newline (mountedWorld (idleGrid None))).
Proof.
  unfold forwardConditionAsStated, forwarded. simpl.
  repeat split; try discriminate; try (left; eexists; reflexivity).
Qed.

(** C2, amended: a keydown on the container is forwarded to the input (a
    copy of the event is dispatched to it) if and only if an input is
    mounted, the key belongs to the cell's class (one digit for a number
    cell; one code point other than a line terminator for a text cell;
    nothing for boolean and select cells), the overlay is showing, and the
    keystroke is not z, c or v with ctrl or meta held. A keydown that is not
    forwarded leaves the world as it was. In particular a digit on a number
    cell in Overlay mode with a mounted input is forwarded, and a letter on
    that cell is not. *)
Theorem keydown_forwarding (type : CellType) (e : KeyboardEvent) (w : World) :
  (forwarded type e w <-> forwardCondition type e w) /\
  (forwarded type e w \/
   handleContainerKeyDown type (showOverlay w) e w = (Returned, w)) /\
  (forall c ctrl meta,
     (0x30 <= c <= 0x39)%N ->
     inputRef w <> None ->
     showOverlay w = true ->
     forwarded TNumber (mkKey [c] ctrl meta) w) /\
  (forall c ctrl meta,
     isLetter c ->
     ~ forwarded TNumber (mkKey [c] ctrl meta) w).
Proof.
  split; [apply forwarded_iff_condition|].
  split; [apply not_forwarded_returns|].
  split.
  - intros c ctrl meta Hc Hin Hso. apply forwarded_iff_condition.
    unfold forwardCondition, isNativeShortcut. simpl.
    repeat split; try assumption.
    + exists c. auto.
    + intros [_ Hk].
      repeat (destruct Hk as [Hk | Hk]; [injection Hk as ->; lia|]).
      injection Hk as ->; lia.
  - intros c ctrl meta Hc Hf. apply forwarded_iff_condition in Hf.
    destruct Hf as [_ [[d [Hk Hd]] _]]. simpl in Hk. injection Hk as <-.
    unfold isLetter in Hc. lia.
Qed.

(** ** Concrete runs *)

(** ["5"] passes both expressions, ["a"] only the text one; ["Enter"] and
    the empty string pass neither; an astral character (U+1F600 as a
    surrogate pair) is one code point for [/^.$/u]. *)
Example regex_runs :
  numberCharacterRegex_test [0x35%N] = true /\
  textCharacterRegex_test [0x35%N] = true /\
  numberCharacterRegex_test [0x61%N] = false /\
  textCharacterRegex_test [0x61%N] = true /\
  textCharacterRegex_test [0x45; 0x6E; 0x74; 0x65; 0x72]%N = false /\
  textCharacterRegex_test [] = false /\
  textCharacterRegex_test [0xD83D; 0xDE00]%N = true /\
  textCharacterRegex_test [0x0A%N] = false.
Proof. repeat split. Qed.

(** Typing 5 on a number cell in Overlay mode: the input takes the focus,
    the overlay state turns false, the content of the [HTMLInputElement] is
    selected and a copy of the event reaches the input. *)
Example type_digit_on_number_cell :
  run (handleContainerKeyDown TNumber true key_5) (mountedWorld (idleGrid None)) =
  mkWorld (idleGrid None) false (Some Div) (Some HTMLInputElement)
          (Some FocusInput) true [key_5] false false.
Proof. reflexivity. Qed.

(** Typing a on the same cell changes nothing. *)
Example type_letter_on_number_cell :
  handleContainerKeyDown TNumber true key_a (mountedWorld (idleGrid None)) =
  (Returned, mountedWorld (idleGrid None)).
Proof. reflexivity. Qed.

(** A shift-click on the overlay two rows below the anchor, same column. *)
Example shift_click_extends_range :
  grid (run (handleOverlayMouseDown (mkCoords 2 0) (Some (mkCoords 0 0)) shiftClick)
            (mountedWorld (idleGrid (Some (mkCoords 0 0))))) =
  mkCoordinator (Some (mkCoords 0 0)) (Some (mkCoords 2 0)) false false.
Proof. reflexivity. Qed.

(** The helper over a service that answers with the ids it was given and one
    that always rejects; the store counts the calls. *)
Example createAuthIdentities_runs :
  createAuthIdentities
    {| service_createAuthIdentities := fun l n =>
         (Fulfilled (map input_id l), S n) |} None 0 =
    (Fulfilled [Some "test-id"; Some "test-id-1"; None]%string, 1) /\
  createAuthIdentities (AuthIdentity := nat)
    {| service_createAuthIdentities := fun _ n =>
         (Rejected (Error "duplicate"), S n) |} (Some []) 0 =
    (Rejected (Error "duplicate"), 1).
Proof. split; reflexivity. Qed.

(** * Further properties of the handlers *)

(** ** Pointer handlers *)

Lemma mouseDownHandler_cases (type : CellType) (coords : CellCoords)
    (a : option CellCoords) (target : MouseDownTarget)
    (h : MouseEvent -> Handler unit) :
  mouseDownHandler type coords a target = Some h ->
  h = handleOverlayMouseDown coords a \/ h = handleBooleanInnerMouseDown coords.
Proof.
  destruct target; simpl; intros Hh.
  - left. congruence.
  - right. now apply innerOnMouseDown_boolean in Hh.
Qed.

(** Splits a goal about a pointer handler into the branches of its tests. *)
Ltac mouse_cases e coords a w :=
  destruct w as [g so [d|] [el|] ae sel dsp dp ps];
  step_handler;
  destruct (detail e =? 2)%Z, (shiftKey e), (colMatchesAnchor coords a);
  cbn.

(** X1: every mouse-down that reaches one of the two handlers has its
    default action cancelled and its propagation stopped, whatever the
    gesture and whatever is mounted. *)
Theorem mouse_down_always_cancelled (type : CellType) (coords : CellCoords)
    (a : option CellCoords) (target : MouseDownTarget)
    (h : MouseEvent -> Handler unit) (e : MouseEvent) (w : World) :
  mouseDownHandler type coords a target = Some h ->
  defaultPrevented (run (h e) w) = true /\
  propagationStopped (run (h e) w) = true.
Proof.
  intros Hh. destruct (mouseDownHandler_cases _ _ _ _ _ Hh) as [-> | ->];
    mouse_cases e coords a w; split; reflexivity.
Qed.

Lemma mouse_down_always_cancelled_witness :
  defaultPrevented
    (run (handleBooleanInnerMouseDown (mkCoords 1 2) shiftClick)
         (noContainerWorld (idleGrid None))) = true /\
  propagationStopped
    (run (handleBooleanInnerMouseDown (mkCoords 1 2) shiftClick)
         (noContainerWorld (idleGrid None))) = true.
Proof.
  apply (mouse_down_always_cancelled TBoolean (mkCoords 1 2) None
           OnInnerControl (handleBooleanInnerMouseDown (mkCoords 1 2))
           shiftClick (noContainerWorld (idleGrid None))).
  reflexivity.
Defined.



(** X3: a shift-click on the overlay in the anchor's column, when it is not
    a double-click or no input is mounted, moves the range end to the
    clicked cell and changes nothing else of the selection: anchor,
    [isSelecting], overlay state and focus stay, and this does not need a
    mounted container. *)
Theorem overlay_shift_click_extends_range (coords : CellCoords)
    (a : option CellCoords) (e : MouseEvent) (w : World) :
  detail e <> 2%Z \/ inputRef w = None ->
  shiftKey e = true ->
  colMatchesAnchor coords a = true ->
  rangeEnd (grid (run (handleOverlayMouseDown coords a e) w)) = Some coords /\
  anchor (grid (run (handleOverlayMouseDown coords a e) w)) = anchor (grid w) /\
  isSelecting (grid (run (handleOverlayMouseDown coords a e) w)) =
    isSelecting (grid w) /\
  showOverlay (run (handleOverlayMouseDown coords a e) w) = showOverlay w /\
  activeElement (run (handleOverlayMouseDown coords a e) w) = activeElement w.
Proof.
  intros Hd Hs Hc.
  destruct w as [g so cr [el|] ae sel dsp dp ps]; step_handler;
    rewrite Hs, Hc.
  - destruct Hd as [Hd | Hd]; [|discriminate Hd].
    rewrite (detail_not_double e Hd). repeat split.
  - destruct (detail e =? 2)%Z; repeat split.
Qed.

Lemma overlay_shift_click_extends_range_witness :
  rangeEnd (grid (run (handleOverlayMouseDown (mkCoords 2 0)
                         (Some (mkCoords 0 0)) shiftClick)
                      (noContainerWorld (idleGrid (Some (mkCoords 0 0)))))) =
    Some (mkCoords 2 0) /\
  anchor (grid (run (handleOverlayMouseDown (mkCoords 2 0)
                       (Some (mkCoords 0 0)) shiftClick)
                    (noContainerWorld (idleGrid (Some (mkCoords 0 0)))))) =
    Some (mkCoords 0 0).
Proof.
  pose proof (overlay_shift_click_extends_range (mkCoords 2 0)
                (Some (mkCoords 0 0)) shiftClick
                (noContainerWorld (idleGrid (Some (mkCoords 0 0)))))
    as H.
  destruct H as [Hend [Hanchor _]];
    [left; discriminate | reflexivity | reflexivity |].
  split; [exact Hend | exact Hanchor].
Defined.

(** X4: on the overlay, with no anchor or with an anchor in another column,
    the shift key is ignored: the handler does exactly what it does for the
    same event without shift. *)
Theorem overlay_shift_ignored_off_column (coords : CellCoords)
    (a : option CellCoords) (e : MouseEvent) (w : World) :
  a = None \/ (exists a', a = Some a' /\ col coords <> col a') ->
  handleOverlayMouseDown coords a e w =
  handleOverlayMouseDown coords a (mkMouse (detail e) false) w.
Proof.
  intros Ha. apply overlay_shift_click_other_column.
  destruct Ha as [-> | [a' [-> Hcol]]]; simpl; [reflexivity|].
  now apply N.eqb_neq.
Qed.

Lemma overlay_shift_ignored_off_column_witness :
  handleOverlayMouseDown (mkCoords 1 2) None shiftClick
    (mountedWorld (idleGrid None)) =
  handleOverlayMouseDown (mkCoords 1 2) None (mkMouse (detail shiftClick) false)
    (mountedWorld (idleGrid None)).
Proof.
  apply (overlay_shift_ignored_off_column (mkCoords 1 2) None shiftClick
           (mountedWorld (idleGrid None))).
  left; reflexivity.
Defined.



(** X6: on a single click the two mouse-down handlers do the same thing
    whenever shift is not held or the clicked column is the anchor's: the
    inner-control handler of a boolean cell and the overlay handler return
    the same flow and leave the same world. *)
Theorem handlers_agree_on_single_clicks (coords : CellCoords)
    (a : option CellCoords) (e : MouseEvent) (w : World) :
  detail e <> 2%Z ->
  shiftKey e = false \/ colMatchesAnchor coords a = true ->
  handleBooleanInnerMouseDown coords e w = handleOverlayMouseDown coords a e w.
Proof.
  intros Hd Hs. step_handler. rewrite (detail_not_double e Hd). cbn.
  destruct Hs as [Hs | Hs]; rewrite Hs.
  - reflexivity.
  - destruct (shiftKey e); reflexivity.
Qed.

Lemma handlers_agree_on_single_clicks_witness :
  handleBooleanInnerMouseDown (mkCoords 2 0) shiftClick
    (mountedWorld (idleGrid (Some (mkCoords 0 0)))) =
  handleOverlayMouseDown (mkCoords 2 0) (Some (mkCoords 0 0)) shiftClick
    (mountedWorld (idleGrid (Some (mkCoords 0 0)))).
Proof.
  apply (handlers_agree_on_single_clicks (mkCoords 2 0) (Some (mkCoords 0 0))
           shiftClick (mountedWorld (idleGrid (Some (mkCoords 0 0)))));
    [discriminate | right; reflexivity].
Defined.

(** ** Keyboard handler *)


(** The world a forwarded keystroke leaves. *)
Lemma forwarded_run (type : CellType) (e : KeyboardEvent) (w : World) :
  forwarded type e w ->
  exists el,
    inputRef w = Some el /\
    run (handleContainerKeyDown type (showOverlay w) e) w =
    with_dispatched (newKeyboardEvent e)
      (if isHTMLInputElement el
       then with_inputSelected
              (with_showOverlay false (with_activeElement FocusInput w))
       else with_showOverlay false (with_activeElement FocusInput w)).
Proof.
  intros Hf. apply forwarded_iff_tests in Hf. destruct Hf as [[el Hin] Ht].
  exists el. split; [exact Hin|].
  unfold run. now rewrite handleContainerKeyDown_cases, Hin, Ht.
Qed.



(** X9: type-to-edit fires once. After a forwarded keystroke the overlay
    state is false, so on the next render every further keydown on the
    container, whatever its key, returns without any effect. *)
Theorem type_to_edit_fires_once (type : CellType) (e e' : KeyboardEvent)
    (w : World) :
  forwarded type e w ->
  handleContainerKeyDown type
    (showOverlay (run (handleContainerKeyDown type (showOverlay w) e) w)) e'
    (run (handleContainerKeyDown type (showOverlay w) e) w) =
  (Returned, run (handleContainerKeyDown type (showOverlay w) e) w).
Proof.
  intros Hf.
  destruct (forwarded_run type e w Hf) as [el [_ Hrun]].
  assert (showOverlay (run (handleContainerKeyDown type (showOverlay w) e) w)
          = false) as Hso by (rewrite Hrun; now destruct el).
  rewrite Hso, handleContainerKeyDown_cases.
  rewrite andb_false_r. simpl.
  now destruct (inputRef (run (handleContainerKeyDown type (showOverlay w) e) w)).
Qed.

Lemma type_to_edit_fires_once_witness :
  handleContainerKeyDown TNumber
    (showOverlay
       (run (handleContainerKeyDown TNumber
               (showOverlay (mountedWorld (idleGrid None))) key_5)
            (mountedWorld (idleGrid None))))
    key_5
    (run (handleContainerKeyDown TNumber
            (showOverlay (mountedWorld (idleGrid None))) key_5)
         (mountedWorld (idleGrid None))) =
  (Returned,
   run (handleContainerKeyDown TNumber
          (showOverlay (mountedWorld (idleGrid None))) key_5)
       (mountedWorld (idleGrid None))).
Proof.
  apply (type_to_edit_fires_once TNumber key_5 key_5
           (mountedWorld (idleGrid None))).
  reflexivity.
Defined.

(** X10: a blur of the input re-arms type-to-edit: a keystroke that was
    forwarded is forwarded again once the input has lost the focus. *)
Theorem blur_rearms_type_to_edit (type : CellType) (e : KeyboardEvent)
    (w : World) :
  forwarded type e w ->
  forwarded type e
    (run handleInputBlur
       (run (handleContainerKeyDown type (showOverlay w) e) w)).
Proof.
  intros Hf. pose proof Hf as Hc. apply forwarded_iff_tests in Hc.
  destruct Hc as [[el Hin] Ht].
  apply andb_true_iff in Ht. destruct Ht as [Ht Hex].
  apply andb_true_iff in Ht. destruct Ht as [Hv Hso].
  apply forwarded_iff_tests.
  destruct w as [g so cr ir ae sel dsp dp ps]; simpl in Hin, Hso; subst ir so.
  unfold run. rewrite handleContainerKeyDown_cases. simpl.
  rewrite Hv, Hex. simpl. split.
  - exists el. now destruct el.
  - reflexivity.
Qed.

Lemma blur_rearms_type_to_edit_witness :
  forwarded TNumber key_5
    (run handleInputBlur
       (run (handleContainerKeyDown TNumber
               (showOverlay (mountedWorld (idleGrid None))) key_5)
            (mountedWorld (idleGrid None)))).
Proof.
  apply (blur_rearms_type_to_edit TNumber key_5 (mountedWorld (idleGrid None))).
  reflexivity.
Defined.

(** X11: every key a number cell accepts is accepted by a text cell. *)
Theorem number_keys_are_text_keys (k : JsString) :
  validateKeyStroke TNumber k = true ->
  validateKeyStroke TText k = true.
Proof.
  intros H. apply validateKeyStroke_spec in H. destruct H as [c [-> Hc]].
  apply validateKeyStroke_spec. split.
  - left. now exists c.
  - intros [c' [Hk Hc']]. injection Hk as <-. lia.
Qed.

Lemma number_keys_are_text_keys_witness :
  validateKeyStroke TText [0x35%N] = true.
Proof.
  apply (number_keys_are_text_keys [0x35%N]). reflexivity.
Defined.

(** X12: a key whose string is not one code point (the empty string, or two
    or more code units that are not one surrogate pair, as for the named
    keys Enter, Tab, F1 or ArrowLeft) is never forwarded: the handler
    returns without any effect for every cell type, modifier state and
    world. *)
Theorem named_keys_never_forwarded (k : JsString) (ctrl meta : bool)
    (type : CellType) (so : bool) (w : World) :
  List.length k <> 1%nat ->
  (forall h l, k = [h; l] -> isHighSurrogate h && isLowSurrogate l = false) ->
  handleContainerKeyDown type so (mkKey k ctrl meta) w = (Returned, w).
Proof.
  intros Hlen Hpair.
  assert (validateKeyStroke type k = false) as Hv.
  { destruct type; simpl; try reflexivity.
    - destruct k as [|c [|d [|x k']]]; simpl in *; try reflexivity.
      + congruence.
      + now apply (Hpair c d).
    - destruct k as [|c [|d k']]; simpl in *; try reflexivity. congruence. }
  rewrite handleContainerKeyDown_cases. simpl. rewrite Hv. simpl.
  now destruct (inputRef w).
Qed.

Lemma named_keys_never_forwarded_witness :
  handleContainerKeyDown TText true key_Enter (mountedWorld (idleGrid None)) =
  (Returned, mountedWorld (idleGrid None)).
Proof.
  apply (named_keys_never_forwarded [0x45; 0x6E; 0x74; 0x65; 0x72]%N false false
           TText true (mountedWorld (idleGrid None))).
  - discriminate.
  - intros h l H. discriminate H.
Defined.

(** ** Focus and blur of the input, composed *)

(** X13: of two consecutive focus or blur events of the input the last one
    decides: the world after both is the world after the second alone. *)
Theorem focus_blur_last_wins (w : World) :
  run handleInputBlur (run handleInputFocus w) = run handleInputBlur w /\
  run handleInputFocus (run handleInputBlur w) = run handleInputFocus w /\
  run handleInputBlur (run handleInputBlur w) = run handleInputBlur w /\
  run handleInputFocus (run handleInputFocus w) = run handleInputFocus w.
Proof.
  destruct w as [[a r s ed] so cr ir ae sel dsp dp ps]. repeat split.
Qed.

(** ** The anchor focus effect *)

(** X14: let the container contain itself, as every DOM node does. When the
    cell is the anchor and its container is mounted, the container contains
    the focused element once the effect has run: the world is untouched if
    it already did, and the container itself takes the focus otherwise.
    When the cell is not the anchor or has no container the effect changes
    nothing. Running the effect a second time changes nothing. *)
Theorem anchor_focus_effect_guarantee (isAnchor : bool)
    (contains : HTMLDivElement -> option Focused -> bool) (w : World) :
  (forall d, contains d (Some FocusContainer) = true) ->
  run (anchorFocusEffect isAnchor contains)
      (run (anchorFocusEffect isAnchor contains) w) =
    run (anchorFocusEffect isAnchor contains) w /\
  match containerRef w with
  | Some d =>
      if isAnchor
      then
        contains d (activeElement (run (anchorFocusEffect isAnchor contains) w))
          = true /\
        (if contains d (activeElement w)
         then run (anchorFocusEffect isAnchor contains) w = w
         else run (anchorFocusEffect isAnchor contains) w =
              with_activeElement FocusContainer w)
      else run (anchorFocusEffect isAnchor contains) w = w
  | None => run (anchorFocusEffect isAnchor contains) w = w
  end.
Proof.
  intros Hself.
  destruct w as [g so [d|] ir ae sel dsp dp ps];
    unfold run, anchorFocusEffect, focus, when, reads, writes; cbn.
  - destruct isAnchor; cbn; [|split; reflexivity].
    destruct (contains d ae) eqn:Hc; cbn;
      rewrite ?Hc, ?Hself; cbn; rewrite ?Hc, ?Hself; cbn;
      repeat split; auto.
  - rewrite andb_true_r. destruct isAnchor; split; reflexivity.
Qed.

Lemma anchor_focus_effect_guarantee_witness :
  run (anchorFocusEffect true containsOwnElements)
      (run (anchorFocusEffect true containsOwnElements)
           (mountedWorld (idleGrid (Some (mkCoords 0 0))))) =
    run (anchorFocusEffect true containsOwnElements)
        (mountedWorld (idleGrid (Some (mkCoords 0 0)))) /\
  activeElement
    (run (anchorFocusEffect true containsOwnElements)
         (mountedWorld (idleGrid (Some (mkCoords 0 0))))) =
    Some FocusContainer.
Proof.
  pose proof (anchor_focus_effect_guarantee true containsOwnElements
                (mountedWorld (idleGrid (Some (mkCoords 0 0))))
                (fun _ => eq_refl)) as [Hidem _].
  split; [exact Hidem | reflexivity].
Defined.

(** ** The query tool hook *)

(** Renders with the ref object the effect last ran with return the stored
    tool and leave the hook instance as it is. *)
Lemma renderAll_same_ref (i : N) (renders : list RefObject) (h : QueryToolHook) :
  effectDeps h = Some i ->
  Forall (fun r => ref_identity r = i) renders ->
  renderAll renders h = (repeat (queryToolRef h) (List.length renders), h).
Proof.
  intros Hdeps Hall. induction Hall as [|r rest Hr _ IH]; simpl.
  - reflexivity.
  - unfold useGridQueryTool, depsChanged. rewrite Hdeps, Hr, N.eqb_refl. simpl.
    now rewrite IH.
Qed.

Lemma renderAll_cons (r : RefObject) (rest : list RefObject)
    (h : QueryToolHook) :
  renderAll (r :: rest) h =
  (fst (useGridQueryTool r h) :: fst (renderAll rest (snd (useGridQueryTool r h))),
   snd (renderAll rest (snd (useGridQueryTool r h)))).
Proof.
  cbn [renderAll]. destruct (useGridQueryTool r h) as [v h'].
  cbn [fst snd]. destruct (renderAll rest h'); reflexivity.
Qed.

(** X15: the first render of the hook returns no tool, even over a mounted
    container. Every later render with the same ref object returns the tool
    built from the container that was mounted when the first effect ran,
    whatever the ref holds later; if nothing was mounted then, every later
    render returns no tool. *)
Theorem query_tool_fixed_by_first_commit (r0 : RefObject)
    (renders : list RefObject) :
  Forall (fun r => ref_identity r = ref_identity r0) renders ->
  fst (renderAll (r0 :: renders) mountQueryToolHook) =
  None :: repeat (option_map mkGridQueryTool (ref_current r0))
            (List.length renders).
Proof.
  intros Hall. simpl.
  rewrite (renderAll_same_ref (ref_identity r0) renders); [|reflexivity|exact Hall].
  simpl. unfold queryToolEffect. now destruct (ref_current r0).
Qed.

Lemma query_tool_fixed_by_first_commit_witness :
  fst (renderAll [mkRefObject 7%N (Some 1%N); mkRefObject 7%N (Some 2%N);
                  mkRefObject 7%N None]  mountQueryToolHook) =
  [None; Some (mkGridQueryTool 1%N); Some (mkGridQueryTool 1%N)] .
Proof.
  apply (query_tool_fixed_by_first_commit (mkRefObject 7%N (Some 1%N))
           [mkRefObject 7%N (Some 2%N); mkRefObject 7%N None]).
  repeat constructor.
Defined.

(** X16: once the hook holds a tool it never goes back to none: whatever
    ref objects the later renders pass, mounted or not, each of them
    returns a tool and the hook keeps one. *)
Theorem query_tool_never_lost (renders : list RefObject) (h : QueryToolHook)
    (t0 : GridQueryTool) :
  queryToolRef h = Some t0 ->
  Forall (fun v => exists t, v = Some t) (fst (renderAll renders h)) /\
  exists t, queryToolRef (snd (renderAll renders h)) = Some t.
Proof.
  revert h t0. induction renders as [|r rest IH]; intros h t0 Hh.
  - split; [constructor | now exists t0].
  - rewrite renderAll_cons. simpl fst. simpl snd.
    assert (exists t, queryToolRef (snd (useGridQueryTool r h)) = Some t)
      as [t Ht].
    { unfold useGridQueryTool, queryToolEffect. simpl.
      destruct (depsChanged (effectDeps h) r); [|now exists t0].
      destruct (ref_current r) as [el|]; simpl; [now eexists | now exists t0]. }
    destruct (IH _ t Ht) as [Hvs Hlast].
    split; [constructor; [now exists t0 | exact Hvs] | exact Hlast].
Qed.

Lemma query_tool_never_lost_witness :
  Forall (fun v => exists t, v = Some t)
    (fst (renderAll [mkRefObject 8%N None; mkRefObject 9%N (Some 3%N)]
            (mkQueryToolHook (Some (mkGridQueryTool 1%N)) (Some 7%N)))) /\
  exists t,
    queryToolRef
      (snd (renderAll [mkRefObject 8%N None; mkRefObject 9%N (Some 3%N)]
              (mkQueryToolHook (Some (mkGridQueryTool 1%N)) (Some 7%N)))) =
    Some t.
Proof.
  apply (query_tool_never_lost [mkRefObject 8%N None; mkRefObject 9%N (Some 3%N)]
           (mkQueryToolHook (Some (mkGridQueryTool 1%N)) (Some 7%N))
           (mkGridQueryTool 1%N)).
  reflexivity.
Defined.

(** X17: a render that passes another ref object than the last one rebuilds
    the tool from that ref's container, and the next render returns the new
    tool; if that ref holds no container the old tool is kept and returned
    again. *)
Theorem query_tool_rebuilt_for_new_ref (r r' : RefObject) (h : QueryToolHook) :
  depsChanged (effectDeps h) r = true ->
  fst (useGridQueryTool r' (snd (useGridQueryTool r h))) =
  match ref_current r with
  | Some el => Some (mkGridQueryTool el)
  | None => queryToolRef h
  end.
Proof.
  intros Hch. unfold useGridQueryTool, queryToolEffect. rewrite Hch. simpl.
  now destruct (ref_current r).
Qed.

Lemma query_tool_rebuilt_for_new_ref_witness :
  fst (useGridQueryTool (mkRefObject 9%N None)
         (snd (useGridQueryTool (mkRefObject 8%N (Some 4%N))
                 (mkQueryToolHook (Some (mkGridQueryTool 1%N)) (Some 7%N))))) =
  Some (mkGridQueryTool 4%N).
Proof.
  apply (query_tool_rebuilt_for_new_ref (mkRefObject 8%N (Some 4%N))
           (mkRefObject 9%N None)
           (mkQueryToolHook (Some (mkGridQueryTool 1%N)) (Some 7%N))).
  reflexivity.
Defined.

(** ** The cell hook under and outside a provider *)

